(** * Axion-Common: the Sphinx configuration [docs/source/conf.py]

    The configuration file is a straight-line Python module.  Its only
    computation reads an optional [.version] file, two directories above
    the directory of [conf.py], and derives the [release] and [version]
    strings from it; everything else is a constant assignment.

    The module is embedded as a function from the file-system state and
    the value of [__file__] to either the module's final variable bindings
    or the exception that aborts the import. *)

From Stdlib Require Import String Ascii NArith.
From stdpp Require Import gmap list.

(** ** Python strings

    A Python [str] is a sequence of Unicode code points. *)

Abbreviation char := N.
Abbreviation str := (list N).

Fixpoint lit (s : string) : str :=
  match s with
  | EmptyString => []
  | String a s' => N_of_ascii a :: lit s'
  end.
Arguments lit _%_string.

Definition dot : char := 46%N.
Definition slash : char := 47%N.
Definition newline : char := 10%N.

(** [str.isspace] on one code point, as CPython's [Py_UNICODE_ISSPACE]. *)
Definition isspace (c : char) : bool :=
  ((9 <=? c) && (c <=? 13) || (28 <=? c) && (c <=? 32)
   || (c =? 133) || (c =? 160) || (c =? 5760)
   || (8192 <=? c) && (c <=? 8202)
   || (c =? 8232) || (c =? 8233) || (c =? 8239) || (c =? 8287)
   || (c =? 12288))%N.

(** [s.lstrip()], [s.rstrip()] and [s.strip()] without argument. *)
Fixpoint lstrip (s : str) : str :=
  match s with
  | c :: s' => if isspace c then lstrip s' else s
  | [] => []
  end.

Definition rstrip (s : str) : str := reverse (lstrip (reverse s)).

Definition strip (s : str) : str := rstrip (lstrip s).

(** [s.split(sep)] for a one-character separator: the result is never
    empty, and [''.split('.')] is [['']]. *)
Fixpoint split (sep : char) (s : str) : list str :=
  match s with
  | [] => [[]]
  | c :: s' =>
      if (c =? sep)%N then [] :: split sep s'
      else match split sep s' with
           | w :: ws => (c :: w) :: ws
           | [] => [[c]]
           end
  end.

(** [sep.join(l)] for a one-character separator. *)
Fixpoint join (sep : char) (l : list str) : str :=
  match l with
  | [] => []
  | [w] => w
  | w :: l' => w ++ sep :: join sep l'
  end.

(** ** [os.path] on POSIX ([posixpath]) *)

(** [p.rfind('/') + 1]: the length of the part of [p] up to and including
    its last slash, 0 when there is none. *)
Fixpoint rfind_slash_succ (p : str) : nat :=
  match p with
  | [] => 0
  | c :: p' =>
      match rfind_slash_succ p' with
      | O => if (c =? slash)%N then 1 else 0
      | S i => S (S i)
      end
  end.

(** [head.rstrip('/')]. *)
Fixpoint lstrip_slash (s : str) : str :=
  match s with
  | c :: s' => if (c =? slash)%N then lstrip_slash s' else s
  | [] => []
  end.

Definition rstrip_slash (s : str) : str := reverse (lstrip_slash (reverse s)).

Definition all_slashes (s : str) : bool := forallb (fun c => (c =? slash)%N) s.

(** [os.path.dirname(p)]. *)
Definition os_path_dirname (p : str) : str :=
  let i := rfind_slash_succ p in
  let head := take i p in
  match head with
  | [] => head
  | _ :: _ => if all_slashes head then head else rstrip_slash head
  end.

(** [b.startswith('/')] and [a.endswith('/')]. *)
Definition startswith_slash (b : str) : bool :=
  match b with
  | c :: _ => (c =? slash)%N
  | [] => false
  end.

Definition endswith_slash (a : str) : bool :=
  match last a with
  | Some c => (c =? slash)%N
  | None => false
  end.

Definition is_empty (a : str) : bool :=
  match a with
  | [] => true
  | _ :: _ => false
  end.

(** [os.path.join(a, b)] with two arguments. *)
Definition os_path_join (a b : str) : str :=
  if startswith_slash b then b
  else if is_empty a || endswith_slash a then a ++ b
  else a ++ slash :: b.

(** ** The file system and exceptions *)

Inductive exn :=
| FileNotFoundError
| IsADirectoryError
| PermissionError
| UnicodeDecodeError.

Inductive result (A : Type) :=
| Ok (a : A)
| Raise (e : exn).
Arguments Ok {A} a.
Arguments Raise {A} e.

#[export] Instance result_ret : MRet result := fun A a => Ok a.
#[export] Instance result_bind : MBind result := fun A B f m =>
  match m with
  | Ok a => f a
  | Raise e => Raise e
  end.

(** What a path resolves to.  For a regular file, [text] is what
    [open(path)] followed by [f.read()] produces: the decoded text of the
    file, or the exception raised by opening or decoding it. *)
Inductive node :=
| Regular (text : result str)
| Directory.

(** The file system maps a path to the node it resolves to; a path that
    does not resolve (nothing there, or a dangling link) is unmapped. *)
Abbreviation filesystem := (gmap (list N) node).

(** [os.path.exists(p)]: true for whatever the path resolves to. *)
Definition os_path_exists (fs : filesystem) (p : str) : bool :=
  match fs !! p with
  | Some _ => true
  | None => false
  end.

(** [with open(p) as f: ... f.read()]: text mode, whole contents.  The
    handle is closed on every exit of the block, so no state is left. *)
Definition open_read (fs : filesystem) (p : str) : result str :=
  match fs !! p with
  | Some (Regular text) => text
  | Some Directory => Raise IsADirectoryError
  | None => Raise FileNotFoundError
  end.

(** ** The module [conf.py] *)

(** The module-level variables after a successful import. *)
Record Config := {
  project : str;
  copyright : str;
  author : str;
  release : str;
  version : str;
  extensions : list str;
  myst_enable_extensions : list str;
  html_theme : str;
  source_suffix : gmap (list N) (list N);
  master_doc : str;
  templates_path : list str;
  exclude_patterns : list str
}.

(** Line 12: [os.path.join(os.path.dirname(__file__), '../../.version')]. *)
Definition version_file (__file__ : str) : str :=
  os_path_join (os_path_dirname __file__) (lit "../../.version").

(** Lines 13-17: the [if]/[else] that binds [release]. *)
Definition read_release (fs : filesystem) (__file__ : str) : result str :=
  if os_path_exists fs (version_file __file__) then
    text ← open_read fs (version_file __file__);
    mret (strip text)
  else
    mret (lit "0.0.0").

(** Line 19: ['.'.join(release.split('.')[:2])]. *)
Definition truncate (release : str) : str :=
  join dot (take 2 (split dot release)).

(** The whole module, top to bottom. *)
Definition conf (fs : filesystem) (__file__ : str) : result Config :=
  release ← read_release fs __file__;
  let version := truncate release in
  mret {|
    project := lit "Axion-Common";
    copyright := lit "2026, Bugra Tufan";
    author := lit "Bugra Tufan";
    release := release;
    version := version;
    extensions := [lit "sphinx.ext.viewcode";
                   lit "sphinx.ext.intersphinx";
                   lit "myst_parser"];
    myst_enable_extensions := [lit "colon_fence"; lit "deflist"];
    html_theme := lit "sphinx_rtd_theme";
    source_suffix := <[lit ".rst" := lit "restructuredtext"]>
                       (<[lit ".md" := lit "markdown"]> ∅);
    master_doc := lit "index";
    templates_path := [lit "_templates"];
    exclude_patterns := []
  |}.

(** ** Concrete inputs used in the examples

    A location of [conf.py], and file systems in which the version path of
    that location resolves to a given node. *)

Definition conf_py : str := lit "/repo/docs/source/conf.py".

Definition fs_with (n : node) : filesystem := {[ version_file conf_py := n ]}.

Definition fs_text (text : str) : filesystem := fs_with (Regular (Ok text)).

Definition fs_busy : filesystem :=
  <[lit "/repo/README.md" := Regular (Ok (lit "9.9.9"))]>
    (<[lit "/repo/docs" := Directory]> (fs_text (lit "3.1.4"))).

(** Whether every character of a text is whitespace (true of the empty
    text); used to describe what [strip] removes. *)
Definition all_space (s : str) : bool := forallb isspace s.

(** Whether a path resolves to a regular file. *)
Definition is_regular (n : option node) : bool :=
  match n with
  | Some (Regular _) => true
  | _ => false
  end.

(** ** Sanity checks of the embedding on concrete inputs *)

Example dirname_conf_py : os_path_dirname conf_py = lit "/repo/docs/source".
Proof. reflexivity. Qed.

Example version_file_conf_py :
  version_file conf_py = lit "/repo/docs/source/../../.version".
Proof. reflexivity. Qed.

Example dirname_relative : os_path_dirname (lit "conf.py") = [].
Proof. reflexivity. Qed.

Example version_file_relative : version_file (lit "conf.py") = lit "../../.version".
Proof. reflexivity. Qed.

Example split_three : split dot (lit "1.2.3") = [lit "1"; lit "2"; lit "3"].
Proof. reflexivity. Qed.

Example split_empty : split dot [] = [[]].
Proof. reflexivity. Qed.

Example split_adjacent : split dot (lit "a..b.") = [lit "a"; []; lit "b"; []].
Proof. reflexivity. Qed.

Example strip_spaces : strip (lit "  2.5  " ++ [newline]) = lit "2.5".
Proof. reflexivity. Qed.

Example truncate_default : truncate (lit "0.0.0") = lit "0.0".
Proof. reflexivity. Qed.

Example join_absolute : os_path_join (lit "/a") (lit "/b") = lit "/b".
Proof. reflexivity. Qed.

Example join_trailing_slash : os_path_join (lit "a/") (lit "b") = lit "a/b".
Proof. reflexivity. Qed.

Example dirname_root : os_path_dirname (lit "//conf.py") = lit "//".
Proof. reflexivity. Qed.

(** ** Splitting and joining *)

Section SplitJoin.
Variable sep : char.

Lemma split_not_nil (s : str) : split sep s ≠ [].
Proof.
  destruct s as [|c s]; simpl; [done|].
  destruct (c =? sep)%N; [done|]. by destruct (split sep s).
Qed.

Lemma split_cons_sep (s : str) : split sep (sep :: s) = [] :: split sep s.
Proof. simpl. by rewrite N.eqb_refl. Qed.

Lemma split_cons_other (c : char) (s : str) :
  c ≠ sep →
  ∃ w ws, split sep s = w :: ws ∧ split sep (c :: s) = (c :: w) :: ws.
Proof.
  intros Hc. simpl. apply N.eqb_neq in Hc. rewrite Hc.
  pose proof (split_not_nil s) as Hs.
  destruct (split sep s) as [|w ws]; [done|]. by exists w, ws.
Qed.

(** [sep.join(s.split(sep)) == s]. *)
Lemma join_split (s : str) : join sep (split sep s) = s.
Proof.
  induction s as [|c s IH]; [done|].
  destruct (N.eqb_spec c sep) as [->|Hc].
  - rewrite split_cons_sep.
    pose proof (split_not_nil s) as Hs. simpl.
    destruct (split sep s) as [|w ws]; [done|]. simpl in *. by rewrite IH.
  - destruct (split_cons_other c s Hc) as (w & ws & Hs & ->).
    rewrite Hs in IH. destruct ws as [|w' ws]; simpl in *; by rewrite IH.
Qed.

(** No segment of a split contains the separator. *)
Lemma split_Forall (s : str) : Forall (λ w, sep ∉ w) (split sep s).
Proof.
  induction s as [|c s IH].
  - simpl. repeat constructor. by apply not_elem_of_nil.
  - destruct (N.eqb_spec c sep) as [->|Hc].
    + rewrite split_cons_sep. constructor; [by apply not_elem_of_nil|done].
    + destruct (split_cons_other c s Hc) as (w & ws & Hs & ->).
      rewrite Hs in IH. apply Forall_cons in IH as [Hw Hws].
      constructor; [|done]. rewrite elem_of_cons.
      intros [Heq|Hin]; [by subst|done].
Qed.

Lemma split_no_sep (a : str) : sep ∉ a → split sep a = [a].
Proof.
  induction a as [|c a IH]; [done|].
  rewrite not_elem_of_cons. intros [Hc Ha].
  destruct (split_cons_other c a) as (w & ws & Hs & ->); [done|].
  rewrite (IH Ha) in Hs. by simplify_eq.
Qed.

Lemma split_app_sep (a t : str) :
  sep ∉ a → split sep (a ++ sep :: t) = a :: split sep t.
Proof.
  induction a as [|c a IH]; intros Ha.
  - apply split_cons_sep.
  - apply not_elem_of_cons in Ha as [Hc Ha].
    destruct (split_cons_other c (a ++ sep :: t)) as (w & ws & Hs & Hcs);
      [done|].
    change ((c :: a) ++ sep :: t) with (c :: (a ++ sep :: t)).
    rewrite Hcs. rewrite (IH Ha) in Hs. by simplify_eq.
Qed.

(** [sep.join(l).split(sep) == l] when no element of [l] contains the
    separator and [l] is not empty. *)
Lemma split_join (l : list str) :
  l ≠ [] → Forall (λ w, sep ∉ w) l → split sep (join sep l) = l.
Proof.
  induction l as [|w l IH]; [done|]. intros _ Hl.
  apply Forall_cons in Hl as [Hw Hl'].
  destruct l as [|w' l].
  - simpl. by apply split_no_sep.
  - change (join sep (w :: w' :: l)) with (w ++ sep :: join sep (w' :: l)).
    rewrite split_app_sep by done. f_equal. by apply IH.
Qed.

(** Joining fewer segments gives a prefix. *)
Lemma join_take_prefix (n : nat) (l : list str) :
  join sep (take n l) `prefix_of` join sep l.
Proof.
  revert n. induction l as [|w l IH]; intros n.
  - rewrite take_nil. done.
  - destruct n as [|n]; [apply prefix_nil|].
    destruct l as [|w' l].
    + simpl. by rewrite take_nil.
    + destruct n as [|n].
      * simpl. by apply prefix_app_r.
      * change (take (S (S n)) (w :: w' :: l))
          with (w :: w' :: take n l).
        change (join sep (w :: w' :: take n l))
          with (w ++ sep :: join sep (take (S n) (w' :: l))).
        change (join sep (w :: w' :: l))
          with (w ++ sep :: join sep (w' :: l)).
        apply prefix_app, prefix_cons, IH.
Qed.

(** The number of segments is one more than the number of separators. *)
Lemma length_split (s : str) :
  length (split sep s) = S (length (filter (λ c, c = sep) s)).
Proof.
  induction s as [|c s IH]; [done|].
  destruct (N.eqb_spec c sep) as [->|Hc].
  - rewrite split_cons_sep, filter_cons_True by done. simpl. by rewrite IH.
  - destruct (split_cons_other c s Hc) as (w & ws & Hs & ->).
    rewrite filter_cons_False by done. by rewrite <- IH, Hs.
Qed.

Lemma length_split_no_sep (s : str) :
  length (split sep s) < 2 ↔ sep ∉ s.
Proof.
  rewrite length_split. split.
  - intros Hlen Hin.
    assert (sep ∈ filter (λ c, c = sep) s) as Hf
      by (by apply list_elem_of_filter).
    destruct (filter (λ c, c = sep) s); [by apply elem_of_nil in Hf|].
    simpl in Hlen. lia.
  - intros Hnot. destruct (filter (λ c, c = sep) s) as [|c f] eqn:Hf;
      [simpl; lia|].
    assert (c ∈ filter (λ c, c = sep) s) as Hc by (rewrite Hf; left).
    apply list_elem_of_filter in Hc as [-> Hc]. done.
Qed.
End SplitJoin.

(** ** The constructed path *)

(** For a [conf.py] inside a directory whose name does not end in a slash,
    the version path is that directory followed by ["/../../.version"]. *)
Lemma os_path_join_relative (base : str) :
  is_empty base = false → endswith_slash base = false →
  os_path_join base (lit "../../.version") = base ++ lit "/../../.version".
Proof. intros He Hs. unfold os_path_join. simpl. by rewrite He, Hs. Qed.

(** ** The truncation of line 19 *)

Lemma take_split_not_nil (sep : char) (n : nat) (s : str) :
  take (S n) (split sep s) ≠ [].
Proof.
  pose proof (split_not_nil sep s) as Hs.
  by destruct (split sep s).
Qed.

Lemma split_truncate (r : str) :
  split dot (truncate r) = take 2 (split dot r).
Proof.
  unfold truncate. apply split_join.
  - apply take_split_not_nil.
  - apply Forall_take, split_Forall.
Qed.

Lemma truncate_prefix (r : str) : truncate r `prefix_of` r.
Proof.
  unfold truncate. rewrite <- (join_split dot r) at 2.
  apply join_take_prefix.
Qed.

Lemma truncate_no_dot (r : str) : dot ∉ r → truncate r = r.
Proof. intros Hr. unfold truncate. by rewrite split_no_sep. Qed.

Lemma truncate_two (r a b : str) (rest : list str) :
  split dot r = a :: b :: rest → truncate r = a ++ dot :: b.
Proof. intros Hr. unfold truncate. by rewrite Hr. Qed.

Lemma truncate_idempotent (s : str) : truncate (truncate s) = truncate s.
Proof.
  unfold truncate at 1. rewrite split_truncate, take_take. done.
Qed.

(** ** Evaluating the module *)

Lemma read_release_lookup (fs : filesystem) (__file__ : str) :
  read_release fs __file__ =
    match fs !! version_file __file__ with
    | None => Ok (lit "0.0.0")
    | Some (Regular (Ok text)) => Ok (strip text)
    | Some (Regular (Raise e)) => Raise e
    | Some Directory => Raise IsADirectoryError
    end.
Proof.
  unfold read_release, os_path_exists, open_read.
  destruct (fs !! version_file __file__) as [[[text|e]|]|]; done.
Qed.

Lemma conf_inv (fs : filesystem) (__file__ : str) (cfg : Config) :
  conf fs __file__ = Ok cfg →
  read_release fs __file__ = Ok (release cfg) ∧
  version cfg = truncate (release cfg).
Proof.
  unfold conf. destruct (read_release fs __file__) as [r|e]; [|done].
  intros [= <-]. done.
Qed.

Lemma conf_intro (fs : filesystem) (__file__ : str) (r : str) :
  read_release fs __file__ = Ok r →
  ∃ cfg, conf fs __file__ = Ok cfg ∧ release cfg = r ∧ version cfg = truncate r.
Proof. intros Hr. unfold conf. rewrite Hr. eexists. by split. Qed.

(** ** The derived version *)

(** C1: when the version file exists and its stripped contents [r] have at
    least two '.'-separated segments, [version] is the first two segments
    of [r] joined by '.'; these are the two dot-free pieces that [r]
    starts with. *)
Theorem version_first_two_segments
    (fs : filesystem) (__file__ : str) (text r : str) :
  fs !! version_file __file__ = Some (Regular (Ok text)) →
  strip text = r →
  2 ≤ length (split dot r) →
  ∃ a b rest cfg,
    split dot r = a :: b :: rest ∧
    r = join dot (a :: b :: rest) ∧ (dot ∉ a) ∧ (dot ∉ b) ∧
    conf fs __file__ = Ok cfg ∧
    release cfg = r ∧
    version cfg = join dot [a; b].
Proof.
  intros Hfs Hr Hlen.
  destruct (split dot r) as [|a [|b rest]] eqn:Hs; simpl in Hlen; try lia.
  pose proof (split_Forall dot r) as Hall. rewrite Hs in Hall.
  apply Forall_cons in Hall as [Ha Hall].
  apply Forall_cons in Hall as [Hb _].
  destruct (conf_intro fs __file__ r) as (cfg & Hcfg & Hrel & Hver).
  { rewrite read_release_lookup, Hfs. by rewrite Hr. }
  exists a, b, rest, cfg. repeat split; try done.
  - by rewrite <- Hs, join_split.
  - rewrite Hver. by apply truncate_two with rest.
Qed.

Lemma version_first_two_segments_witness :
  fs_text (lit " 10.4.7-rc1 ") !! version_file conf_py
    = Some (Regular (Ok (lit " 10.4.7-rc1 "))) ∧
  strip (lit " 10.4.7-rc1 ") = lit "10.4.7-rc1" ∧
  2 ≤ length (split dot (lit "10.4.7-rc1")) ∧
  ∃ a b rest cfg,
    split dot (lit "10.4.7-rc1") = a :: b :: rest ∧
    lit "10.4.7-rc1" = join dot (a :: b :: rest) ∧ (dot ∉ a) ∧ (dot ∉ b) ∧
    conf (fs_text (lit " 10.4.7-rc1 ")) conf_py = Ok cfg ∧
    release cfg = lit "10.4.7-rc1" ∧
    version cfg = join dot [a; b].
Proof.
  assert (fs_text (lit " 10.4.7-rc1 ") !! version_file conf_py
            = Some (Regular (Ok (lit " 10.4.7-rc1 ")))) as Hfs
    by (vm_compute; reflexivity).
  assert (strip (lit " 10.4.7-rc1 ") = lit "10.4.7-rc1") as Hr
    by reflexivity.
  assert (2 ≤ length (split dot (lit "10.4.7-rc1"))) as Hlen
    by (vm_compute; lia).
  repeat split; try assumption.
  exact (version_first_two_segments _ _ _ _ Hfs Hr Hlen).
Defined.

(** ** The version file is absent *)

(** C2, as stated, at the empty file system: the import succeeds with
    [release = "0.0.0"], but [version] is not ["0.0.0"]. *)
Lemma absent_version_differs :
  (∅ : filesystem) !! version_file conf_py = None ∧
  ¬ ∃ cfg, conf ∅ conf_py = Ok cfg ∧
           release cfg = lit "0.0.0" ∧ version cfg = lit "0.0.0".
Proof.
  split; [reflexivity|].
  intros (cfg & Hcfg & _ & Hver).
  apply conf_inv in Hcfg as [Hrel Hcfg].
  rewrite read_release_lookup, lookup_empty in Hrel.
  injection Hrel as Hrel. rewrite <- Hrel in Hcfg.
  rewrite Hcfg in Hver. vm_compute in Hver. discriminate Hver.
Qed.

(** C2, amended: when the version file is absent the import raises
    nothing, [release] is ["0.0.0"] and [version] is its first two segments,
    ["0.0"]. *)
Theorem absent_file_default (fs : filesystem) (__file__ : str) :
  fs !! version_file __file__ = None →
  ∃ cfg, conf fs __file__ = Ok cfg ∧
         release cfg = lit "0.0.0" ∧ version cfg = lit "0.0".
Proof.
  intros Hfs.
  destruct (conf_intro fs __file__ (lit "0.0.0")) as (cfg & Hcfg & Hrel & Hver).
  { by rewrite read_release_lookup, Hfs. }
  exists cfg. by repeat split.
Qed.

Lemma absent_file_default_witness :
  (∅ : filesystem) !! version_file conf_py = None ∧
  ∃ cfg, conf ∅ conf_py = Ok cfg ∧
         release cfg = lit "0.0.0" ∧ version cfg = lit "0.0".
Proof.
  split; [reflexivity|].
  apply (absent_file_default ∅ conf_py). reflexivity.
Defined.

(** ** The invariant relating [version] and [release] *)

(** C3: whatever the import produces, [version] is a prefix of [release],
    its segments are the first (at most two) segments of [release], and a
    [release] with fewer than two segments, that is, without a '.', is
    its own [version]. *)
Theorem version_prefix_of_release
    (fs : filesystem) (__file__ : str) (cfg : Config) :
  conf fs __file__ = Ok cfg →
  version cfg `prefix_of` release cfg ∧
  split dot (version cfg) = take 2 (split dot (release cfg)) ∧
  length (split dot (version cfg)) ≤ 2 ∧
  (length (split dot (release cfg)) < 2 ↔ dot ∉ release cfg) ∧
  (length (split dot (release cfg)) < 2 → version cfg = release cfg).
Proof.
  intros Hcfg. apply conf_inv in Hcfg as [_ ->].
  repeat split.
  - apply truncate_prefix.
  - apply split_truncate.
  - rewrite split_truncate, length_take. lia.
  - by apply length_split_no_sep.
  - by apply length_split_no_sep.
  - intros Hlen. by apply truncate_no_dot, length_split_no_sep.
Qed.

Lemma version_prefix_of_release_witness :
  ∃ cfg,
    conf (fs_text (lit "7")) conf_py = Ok cfg ∧
    release cfg = lit "7" ∧
    version cfg `prefix_of` release cfg ∧
    split dot (version cfg) = take 2 (split dot (release cfg)) ∧
    length (split dot (version cfg)) ≤ 2 ∧
    (length (split dot (release cfg)) < 2 ↔ dot ∉ release cfg) ∧
    (length (split dot (release cfg)) < 2 → version cfg = release cfg).
Proof.
  eexists. split; [vm_compute; reflexivity|]. split; [reflexivity|].
  apply (version_prefix_of_release (fs_text (lit "7")) conf_py).
  vm_compute; reflexivity.
Defined.

(** ** Where [release] comes from *)

(** C4, as stated, at a file system whose version path is a directory: no
    regular file exists there, yet the default is not used; the import
    stops with the exception of [open]. *)
Lemma directory_is_not_default :
  is_regular (fs_with Directory !! version_file conf_py) = false ∧
  conf (fs_with Directory) conf_py = Raise IsADirectoryError ∧
  ¬ ∃ cfg, conf (fs_with Directory) conf_py = Ok cfg ∧
           release cfg = lit "0.0.0".
Proof.
  assert (conf (fs_with Directory) conf_py = Raise IsADirectoryError) as Hconf
    by (vm_compute; reflexivity).
  split; [vm_compute; reflexivity|]. split; [exact Hconf|].
  intros (cfg & Hcfg & _). rewrite Hconf in Hcfg. discriminate Hcfg.
Qed.

(** C4, amended: the branch that opens the file is taken exactly when
    something exists at the constructed path.  Nothing there gives the
    default; a regular file that reads as text gives its stripped text; a
    directory, or a file whose opening or decoding fails, raises.  So the
    import succeeds exactly when the path is absent or a readable regular
    file. *)
Theorem release_source (fs : filesystem) (__file__ : str) :
  (os_path_exists fs (version_file __file__) = true
     ↔ is_Some (fs !! version_file __file__)) ∧
  read_release fs __file__ =
    match fs !! version_file __file__ with
    | None => Ok (lit "0.0.0")
    | Some (Regular (Ok text)) => Ok (strip text)
    | Some (Regular (Raise e)) => Raise e
    | Some Directory => Raise IsADirectoryError
    end ∧
  ((∃ cfg, conf fs __file__ = Ok cfg)
     ↔ fs !! version_file __file__ = None
       ∨ ∃ text, fs !! version_file __file__ = Some (Regular (Ok text))).
Proof.
  split; [|split].
  - unfold os_path_exists.
    destruct (fs !! version_file __file__) as [n|].
    + split; [by eexists|done].
    + split; [done|]. by intros [? ?].
  - apply read_release_lookup.
  - split.
    + intros [cfg Hcfg]. apply conf_inv in Hcfg as [Hrel _].
      rewrite read_release_lookup in Hrel.
      destruct (fs !! version_file __file__) as [[[text|e]|]|];
        try discriminate Hrel; [right; by exists text | by left].
    + intros Hfs.
      destruct (conf_intro fs __file__
                  (match fs !! version_file __file__ with
                   | Some (Regular (Ok text)) => strip text
                   | _ => lit "0.0.0"
                   end)) as (cfg & Hcfg & _).
      { rewrite read_release_lookup.
        destruct Hfs as [->|[text ->]]; done. }
      by exists cfg.
Qed.

(** ** Concrete version files *)

(** C5: a version file holding ["1.2.3"] and a newline gives
    [release = "1.2.3"] and [version = "1.2"]. *)
Theorem version_file_1_2_3 (fs : filesystem) (__file__ : str) :
  fs !! version_file __file__ = Some (Regular (Ok (lit "1.2.3" ++ [newline]))) →
  ∃ cfg, conf fs __file__ = Ok cfg ∧
         release cfg = lit "1.2.3" ∧ version cfg = lit "1.2".
Proof.
  intros Hfs.
  destruct (conf_intro fs __file__ (lit "1.2.3")) as (cfg & Hcfg & Hrel & Hver).
  { by rewrite read_release_lookup, Hfs. }
  exists cfg. by repeat split.
Qed.

Lemma version_file_1_2_3_witness :
  fs_text (lit "1.2.3" ++ [newline]) !! version_file conf_py
    = Some (Regular (Ok (lit "1.2.3" ++ [newline]))) ∧
  ∃ cfg, conf (fs_text (lit "1.2.3" ++ [newline])) conf_py = Ok cfg ∧
         release cfg = lit "1.2.3" ∧ version cfg = lit "1.2".
Proof.
  split; [vm_compute; reflexivity|].
  apply (version_file_1_2_3 (fs_text (lit "1.2.3" ++ [newline])) conf_py).
  vm_compute; reflexivity.
Defined.

(** C6: a version file holding ["  2.5  "] and a newline gives
    [release = "2.5"], the surrounding whitespace removed, and
    [version = "2.5"]. *)
Theorem version_file_padded (fs : filesystem) (__file__ : str) :
  fs !! version_file __file__
    = Some (Regular (Ok (lit "  2.5  " ++ [newline]))) →
  ∃ cfg, conf fs __file__ = Ok cfg ∧
         release cfg = lit "2.5" ∧ version cfg = lit "2.5".
Proof.
  intros Hfs.
  destruct (conf_intro fs __file__ (lit "2.5")) as (cfg & Hcfg & Hrel & Hver).
  { by rewrite read_release_lookup, Hfs. }
  exists cfg. by repeat split.
Qed.

Lemma version_file_padded_witness :
  fs_text (lit "  2.5  " ++ [newline]) !! version_file conf_py
    = Some (Regular (Ok (lit "  2.5  " ++ [newline]))) ∧
  ∃ cfg, conf (fs_text (lit "  2.5  " ++ [newline])) conf_py = Ok cfg ∧
         release cfg = lit "2.5" ∧ version cfg = lit "2.5".
Proof.
  split; [vm_compute; reflexivity|].
  apply (version_file_padded (fs_text (lit "  2.5  " ++ [newline])) conf_py).
  vm_compute; reflexivity.
Defined.

(** C7: an empty version file gives [release = ""] and [version = ""];
    more generally any text at all is accepted: the import succeeds with
    [release] the stripped text and [version] its truncation. *)
Theorem version_file_unvalidated
    (fs : filesystem) (__file__ : str) (text : str) :
  fs !! version_file __file__ = Some (Regular (Ok text)) →
  ∃ cfg, conf fs __file__ = Ok cfg ∧
         release cfg = strip text ∧
         version cfg = truncate (strip text) ∧
         (text = [] → release cfg = [] ∧ version cfg = []).
Proof.
  intros Hfs.
  destruct (conf_intro fs __file__ (strip text)) as (cfg & Hcfg & Hrel & Hver).
  { by rewrite read_release_lookup, Hfs. }
  exists cfg. split; [done|]. split; [done|]. split; [done|].
  intros ->. split; [by rewrite Hrel | by rewrite Hver].
Qed.

Lemma version_file_unvalidated_witness :
  fs_text [] !! version_file conf_py = Some (Regular (Ok [])) ∧
  ∃ cfg, conf (fs_text []) conf_py = Ok cfg ∧ release cfg = [] ∧ version cfg = [].
Proof.
  split; [vm_compute; reflexivity|].
  destruct (version_file_unvalidated (fs_text []) conf_py [])
    as (cfg & Hcfg & _ & _ & Hempty); [vm_compute; reflexivity|].
  exists cfg. split; [exact Hcfg|]. apply Hempty. reflexivity.
Defined.

(** ** The constant settings *)

(** C8: whatever the file system holds, an import that completes binds
    [extensions] to the three extensions in source order, [html_theme] to
    ['sphinx_rtd_theme'], and [source_suffix] to the dictionary with
    exactly the keys ['.rst'] and ['.md']. *)
Theorem static_settings (fs : filesystem) (__file__ : str) (cfg : Config) :
  conf fs __file__ = Ok cfg →
  extensions cfg = [lit "sphinx.ext.viewcode";
                    lit "sphinx.ext.intersphinx";
                    lit "myst_parser"] ∧
  length (extensions cfg) = 3 ∧
  html_theme cfg = lit "sphinx_rtd_theme" ∧
  source_suffix cfg !! lit ".rst" = Some (lit "restructuredtext") ∧
  source_suffix cfg !! lit ".md" = Some (lit "markdown") ∧
  dom (source_suffix cfg) = {[ lit ".rst"; lit ".md" ]}.
Proof.
  unfold conf. destruct (read_release fs __file__) as [r|e]; [|done].
  intros [= <-]. cbn [extensions html_theme source_suffix].
  split; [reflexivity|]. split; [reflexivity|]. split; [reflexivity|].
  split; [|split].
  - apply lookup_insert_eq.
  - rewrite lookup_insert_ne by done. apply lookup_insert_eq.
  - rewrite !dom_insert_L, dom_empty_L. set_solver.
Qed.

Lemma static_settings_witness :
  ∃ cfg,
    conf ∅ conf_py = Ok cfg ∧
    extensions cfg = [lit "sphinx.ext.viewcode";
                      lit "sphinx.ext.intersphinx";
                      lit "myst_parser"] ∧
    length (extensions cfg) = 3 ∧
    html_theme cfg = lit "sphinx_rtd_theme" ∧
    source_suffix cfg !! lit ".rst" = Some (lit "restructuredtext") ∧
    source_suffix cfg !! lit ".md" = Some (lit "markdown") ∧
    dom (source_suffix cfg) = {[ lit ".rst"; lit ".md" ]}.
Proof.
  eexists. split; [vm_compute; reflexivity|].
  apply (static_settings ∅ conf_py). vm_compute; reflexivity.
Defined.

(** ** Algebra of the truncation *)

(** C9: truncating twice is truncating once, and a truncated string has
    at most two segments, that is, at most one '.'. *)
Theorem truncate_idempotent_bounded (s : str) :
  truncate (truncate s) = truncate s ∧
  length (split dot (truncate s)) ≤ 2 ∧
  length (filter (λ c, c = dot) (truncate s)) ≤ 1.
Proof.
  assert (length (split dot (truncate s)) ≤ 2) as Hlen
    by (rewrite split_truncate, length_take; lia).
  split; [apply truncate_idempotent|]. split; [exact Hlen|].
  rewrite length_split in Hlen. lia.
Qed.

(** ** Dependence on the file system *)

(** C10: the import is a function of the file-system state, and of that
    state it reads only what the version path resolves to: two states (and
    two locations of [conf.py]) that agree there give the same outcome, in
    particular the same [release] and [version]. *)
Theorem conf_depends_only_on_version_file
    (fs1 fs2 : filesystem) (file1 file2 : str) :
  fs1 !! version_file file1 = fs2 !! version_file file2 →
  conf fs1 file1 = conf fs2 file2 ∧
  ∀ cfg1 cfg2, conf fs1 file1 = Ok cfg1 → conf fs2 file2 = Ok cfg2 →
               release cfg1 = release cfg2 ∧ version cfg1 = version cfg2.
Proof.
  intros Hfs.
  assert (conf fs1 file1 = conf fs2 file2) as Hconf.
  { unfold conf. by rewrite !read_release_lookup, Hfs. }
  split; [exact Hconf|].
  intros cfg1 cfg2 H1 H2. rewrite Hconf, H2 in H1. by injection H1 as ->.
Qed.

Lemma conf_depends_only_on_version_file_witness :
  fs_text (lit "3.1.4") !! version_file conf_py
    = fs_busy !! version_file (lit "/repo/docs/source/index.py") ∧
  conf (fs_text (lit "3.1.4")) conf_py
    = conf fs_busy (lit "/repo/docs/source/index.py").
Proof.
  split; [vm_compute; reflexivity|].
  apply (conf_depends_only_on_version_file
           (fs_text (lit "3.1.4")) fs_busy
           conf_py (lit "/repo/docs/source/index.py")).
  vm_compute; reflexivity.
Defined.

(** * Further properties of the module *)

(** ** Stripping *)

Lemma all_space_app (s t : str) :
  all_space (s ++ t) = all_space s && all_space t.
Proof. apply forallb_app. Qed.

Lemma lstrip_split (s : str) :
  ∃ pre, s = pre ++ lstrip s ∧ all_space pre = true.
Proof.
  induction s as [|c s (pre & Hs & Hpre)]; [by exists []|].
  simpl. destruct (isspace c) eqn:Hc.
  - exists (c :: pre). simpl. rewrite Hc, Hpre. by rewrite <- Hs.
  - by exists [].
Qed.

Lemma lstrip_head (s : str) (c : char) :
  head (lstrip s) = Some c → isspace c = false.
Proof.
  induction s as [|d s IH]; [done|]. simpl.
  destruct (isspace d) eqn:Hd; [done|]. by intros [= <-].
Qed.

Lemma lstrip_fixed (s : str) :
  (∀ c, head s = Some c → isspace c = false) → lstrip s = s.
Proof.
  destruct s as [|c s]; [done|]. intros Hs. simpl.
  by rewrite (Hs c eq_refl).
Qed.

Lemma lstrip_all_space (s : str) : all_space s = true → lstrip s = [].
Proof.
  induction s as [|c s IH]; [done|]. simpl.
  intros [Hc Hs]%andb_true_iff. rewrite Hc. by apply IH.
Qed.

Lemma lstrip_app_space (pre s : str) :
  all_space pre = true → lstrip (pre ++ s) = lstrip s.
Proof.
  induction pre as [|c pre IH]; [done|]. simpl.
  intros [Hc Hpre]%andb_true_iff. rewrite Hc. by apply IH.
Qed.

Lemma lstrip_app_keep (s post : str) :
  lstrip s ≠ [] → lstrip (s ++ post) = lstrip s ++ post.
Proof.
  induction s as [|c s IH]; [done|]. simpl.
  destruct (isspace c); [apply IH|done].
Qed.

Lemma all_space_reverse (s : str) : all_space (reverse s) = all_space s.
Proof.
  induction s as [|c s IH]; [done|].
  rewrite reverse_cons, all_space_app, IH. simpl.
  rewrite andb_true_r. apply andb_comm.
Qed.

Lemma rstrip_split (s : str) :
  ∃ post, s = rstrip s ++ post ∧ all_space post = true.
Proof.
  destruct (lstrip_split (reverse s)) as (pre & Hs & Hpre).
  exists (reverse pre). split; [|by rewrite all_space_reverse].
  unfold rstrip. rewrite <- reverse_app, <- Hs. by rewrite reverse_involutive.
Qed.

Lemma rstrip_last (s : str) (c : char) :
  last (rstrip s) = Some c → isspace c = false.
Proof. unfold rstrip. rewrite last_reverse. apply lstrip_head. Qed.

Lemma rstrip_fixed (s : str) :
  (∀ c, last s = Some c → isspace c = false) → rstrip s = s.
Proof.
  intros Hs. unfold rstrip. rewrite lstrip_fixed; [apply reverse_involutive|].
  intros c. rewrite head_reverse. apply Hs.
Qed.

Lemma rstrip_app_space (s post : str) :
  all_space post = true → rstrip (s ++ post) = rstrip s.
Proof.
  intros Hpost. unfold rstrip. rewrite reverse_app, lstrip_app_space; [done|].
  by rewrite all_space_reverse.
Qed.

Lemma rstrip_head (s : str) (c : char) :
  head (rstrip s) = Some c → head s = Some c.
Proof.
  destruct (rstrip_split s) as (post & Hs & _). rewrite Hs at 2.
  by destruct (rstrip s).
Qed.

Lemma strip_split (s : str) :
  ∃ pre post,
    s = pre ++ strip s ++ post ∧ all_space pre = true ∧ all_space post = true.
Proof.
  destruct (lstrip_split s) as (pre & Hs & Hpre).
  destruct (rstrip_split (lstrip s)) as (post & Hl & Hpost).
  exists pre, post. unfold strip. by rewrite <- Hl.
Qed.

Lemma strip_head (s : str) (c : char) :
  head (strip s) = Some c → isspace c = false.
Proof. intros Hc%rstrip_head. by apply lstrip_head in Hc. Qed.

Lemma strip_last (s : str) (c : char) :
  last (strip s) = Some c → isspace c = false.
Proof. apply rstrip_last. Qed.

Lemma strip_fixed (s : str) :
  (∀ c, head s = Some c → isspace c = false) →
  (∀ c, last s = Some c → isspace c = false) →
  strip s = s.
Proof.
  intros Hh Hl. unfold strip. rewrite lstrip_fixed by done.
  by apply rstrip_fixed.
Qed.

Lemma strip_idempotent (s : str) : strip (strip s) = strip s.
Proof. apply strip_fixed; [apply strip_head | apply strip_last]. Qed.

Lemma strip_all_space (s : str) : all_space s = true → strip s = [].
Proof. intros Hs. unfold strip. by rewrite lstrip_all_space. Qed.

Lemma strip_pad (pre s post : str) :
  all_space pre = true → all_space post = true →
  strip (pre ++ s ++ post) = strip s.
Proof.
  intros Hpre Hpost. unfold strip. rewrite lstrip_app_space by done.
  destruct (lstrip s) as [|c l] eqn:Hl.
  - destruct (lstrip_split s) as (ws & Hs & Hws).
    rewrite Hl, app_nil_r in Hs. subst ws.
    rewrite lstrip_all_space; [done|].
    by rewrite all_space_app, Hws, Hpost.
  - rewrite lstrip_app_keep by (by rewrite Hl).
    rewrite Hl. by apply rstrip_app_space.
Qed.

(** ** More on splitting and truncating *)

Lemma split_app (sep : char) (r t : str) :
  split sep (r ++ sep :: t) = split sep r ++ split sep t.
Proof.
  induction r as [|c r IH]; [apply split_cons_sep|].
  change ((c :: r) ++ sep :: t) with (c :: (r ++ sep :: t)).
  destruct (N.eqb_spec c sep) as [->|Hc].
  - by rewrite !split_cons_sep, IH.
  - destruct (split_cons_other sep c (r ++ sep :: t) Hc) as (w & ws & Hs & ->).
    destruct (split_cons_other sep c r Hc) as (w' & ws' & Hs' & ->).
    rewrite IH, Hs' in Hs. by simplify_eq/=.
Qed.

Lemma join_take_drop_2 (sep : char) (l : list str) :
  2 < length l →
  join sep l = join sep (take 2 l) ++ sep :: join sep (drop 2 l).
Proof.
  destruct l as [|a [|b [|c l]]]; simpl; try lia. intros _.
  by rewrite <- app_assoc.
Qed.

Lemma truncate_eq_iff (r1 r2 : str) :
  truncate r1 = truncate r2 ↔ take 2 (split dot r1) = take 2 (split dot r2).
Proof.
  split.
  - intros Heq. by rewrite <- !split_truncate, Heq.
  - intros Heq. unfold truncate. by rewrite Heq.
Qed.

Lemma truncate_fixed_iff (r : str) :
  truncate r = r ↔ length (split dot r) ≤ 2.
Proof.
  split.
  - intros Heq. rewrite <- Heq at 1. rewrite split_truncate, length_take. lia.
  - intros Hlen. unfold truncate. rewrite take_ge by done. apply join_split.
Qed.

Lemma truncate_tail (r : str) :
  2 < length (split dot r) →
  r = truncate r ++ dot :: join dot (drop 2 (split dot r)).
Proof.
  intros Hlen. rewrite <- (join_split dot r) at 1.
  by apply join_take_drop_2.
Qed.

Lemma truncate_app_suffix (r t : str) :
  2 ≤ length (split dot r) → truncate (r ++ dot :: t) = truncate r.
Proof.
  intros Hlen. unfold truncate. rewrite split_app.
  by rewrite take_app_le.
Qed.

Lemma dot_in_truncate (r : str) : dot ∈ truncate r ↔ dot ∈ r.
Proof.
  pose proof (length_split_no_sep dot r) as Hr.
  pose proof (length_split_no_sep dot (truncate r)) as Ht.
  rewrite split_truncate, length_take in Ht.
  destruct (decide (dot ∈ r)) as [Hin|Hnot];
    destruct (decide (dot ∈ truncate r)) as [Hin'|Hnot']; try done.
  - apply Ht in Hnot'. assert (length (split dot r) < 2) as Hlen by lia.
    by apply Hr in Hlen.
  - apply Hr in Hnot. assert (2 `min` length (split dot r) < 2) as Hlen by lia.
    by apply Ht in Hlen.
Qed.

(** ** The constructed path, continued *)

Lemma lstrip_slash_suffix (s : str) : lstrip_slash s `suffix_of` s.
Proof.
  induction s as [|c s IH]; [done|]. simpl.
  destruct (c =? slash)%N; [by apply suffix_cons_r|done].
Qed.

Lemma rstrip_slash_prefix (s : str) : rstrip_slash s `prefix_of` s.
Proof.
  unfold rstrip_slash. apply prefix_suffix_reverse.
  rewrite reverse_involutive. apply lstrip_slash_suffix.
Qed.

Lemma os_path_dirname_prefix (p : str) : os_path_dirname p `prefix_of` p.
Proof.
  unfold os_path_dirname.
  pose proof (prefix_take p (rfind_slash_succ p)) as Ht.
  destruct (take (rfind_slash_succ p) p) as [|c head] eqn:Hh; [done|].
  destruct (all_slashes (c :: head)); [done|].
  etrans; [apply rstrip_slash_prefix|done].
Qed.

Lemma os_path_join_relative_cases (a b : str) :
  startswith_slash b = false →
  os_path_join a b = a ++ b ∨ os_path_join a b = a ++ slash :: b.
Proof.
  intros Hb. unfold os_path_join. rewrite Hb.
  destruct (is_empty a || endswith_slash a); [by left|by right].
Qed.

(** ** What [release] keeps of the version file *)

(** X1: the [release] read from a version file is the file's text without
    a leading and a trailing run of whitespace, and itself neither starts
    nor ends with a whitespace character. *)
Theorem release_is_trimmed_text
    (fs : filesystem) (__file__ : str) (text : str) :
  fs !! version_file __file__ = Some (Regular (Ok text)) →
  ∃ cfg pre post,
    conf fs __file__ = Ok cfg ∧
    text = pre ++ release cfg ++ post ∧
    all_space pre = true ∧ all_space post = true ∧
    (∀ c, head (release cfg) = Some c → isspace c = false) ∧
    (∀ c, last (release cfg) = Some c → isspace c = false).
Proof.
  intros Hfs.
  destruct (conf_intro fs __file__ (strip text)) as (cfg & Hcfg & Hrel & _).
  { by rewrite read_release_lookup, Hfs. }
  destruct (strip_split text) as (pre & post & Htext & Hpre & Hpost).
  exists cfg, pre, post. rewrite Hrel.
  split; [done|]. split; [done|]. split; [done|]. split; [done|].
  split; [apply strip_head | apply strip_last].
Qed.

Lemma release_is_trimmed_text_witness :
  fs_text (lit "  v1.0 beta  ") !! version_file conf_py
    = Some (Regular (Ok (lit "  v1.0 beta  "))) ∧
  ∃ cfg pre post,
    conf (fs_text (lit "  v1.0 beta  ")) conf_py = Ok cfg ∧
    lit "  v1.0 beta  " = pre ++ release cfg ++ post ∧
    all_space pre = true ∧ all_space post = true ∧
    (∀ c, head (release cfg) = Some c → isspace c = false) ∧
    (∀ c, last (release cfg) = Some c → isspace c = false).
Proof.
  split; [vm_compute; reflexivity|].
  apply (release_is_trimmed_text (fs_text (lit "  v1.0 beta  ")) conf_py).
  vm_compute; reflexivity.
Defined.

(** X2: whitespace added before and after the text of the version file
    changes nothing in the outcome of the import. *)
Theorem whitespace_padding_ignored
    (fs1 fs2 : filesystem) (file1 file2 : str) (pre text post : str) :
  all_space pre = true → all_space post = true →
  fs1 !! version_file file1 = Some (Regular (Ok text)) →
  fs2 !! version_file file2 = Some (Regular (Ok (pre ++ text ++ post))) →
  conf fs1 file1 = conf fs2 file2.
Proof.
  intros Hpre Hpost H1 H2. unfold conf.
  rewrite !read_release_lookup, H1, H2. by rewrite strip_pad.
Qed.

Lemma whitespace_padding_ignored_witness :
  all_space (lit " ") = true ∧
  all_space [newline; newline] = true ∧
  conf (fs_text (lit "4.2.0")) conf_py
    = conf (fs_text (lit " " ++ lit "4.2.0" ++ [newline; newline])) conf_py.
Proof.
  split; [reflexivity|]. split; [reflexivity|].
  apply (whitespace_padding_ignored
           (fs_text (lit "4.2.0"))
           (fs_text (lit " " ++ lit "4.2.0" ++ [newline; newline]))
           conf_py conf_py (lit " ") (lit "4.2.0") [newline; newline]);
    vm_compute; reflexivity.
Defined.

(** X3: a version file that holds only whitespace gives an empty
    [release] and an empty [version]. *)
Theorem blank_version_file (fs : filesystem) (__file__ : str) (text : str) :
  fs !! version_file __file__ = Some (Regular (Ok text)) →
  all_space text = true →
  ∃ cfg, conf fs __file__ = Ok cfg ∧ release cfg = [] ∧ version cfg = [].
Proof.
  intros Hfs Hws.
  destruct (conf_intro fs __file__ []) as (cfg & Hcfg & Hrel & Hver).
  { by rewrite read_release_lookup, Hfs, strip_all_space. }
  by exists cfg.
Qed.

Lemma blank_version_file_witness :
  fs_text [32; newline; 9; newline]%N !! version_file conf_py
    = Some (Regular (Ok [32; newline; 9; newline]%N)) ∧
  all_space [32; newline; 9; newline]%N = true ∧
  ∃ cfg, conf (fs_text [32; newline; 9; newline]%N) conf_py = Ok cfg ∧
         release cfg = [] ∧ version cfg = [].
Proof.
  split; [vm_compute; reflexivity|]. split; [reflexivity|].
  apply (blank_version_file (fs_text [32; newline; 9; newline]%N) conf_py
           [32; newline; 9; newline]%N);
    vm_compute; reflexivity.
Defined.

(** X4: writing the [release] of a completed import into the version
    file and importing again gives the same configuration; this holds for
    the default release too. *)
Theorem release_round_trip
    (fs fs' : filesystem) (file file' : str) (cfg : Config) :
  conf fs file = Ok cfg →
  fs' !! version_file file' = Some (Regular (Ok (release cfg))) →
  conf fs' file' = Ok cfg.
Proof.
  intros Hcfg Hfs'.
  assert (strip (release cfg) = release cfg) as Hfix.
  { apply conf_inv in Hcfg as [Hrel _].
    rewrite read_release_lookup in Hrel.
    destruct (fs !! version_file file) as [[[text|e]|]|];
      try discriminate Hrel; injection Hrel as <-;
      [apply strip_idempotent | reflexivity]. }
  rewrite <- Hcfg. unfold conf.
  rewrite !read_release_lookup, Hfs', Hfix.
  apply conf_inv in Hcfg as [Hrel _].
  rewrite read_release_lookup in Hrel. by rewrite Hrel.
Qed.

Lemma release_round_trip_witness :
  ∃ cfg,
    conf ∅ conf_py = Ok cfg ∧
    fs_text (release cfg) !! version_file conf_py
      = Some (Regular (Ok (release cfg))) ∧
    conf (fs_text (release cfg)) conf_py = Ok cfg.
Proof.
  eexists. split; [vm_compute; reflexivity|].
  split; [vm_compute; reflexivity|].
  apply (release_round_trip ∅ _ conf_py conf_py); vm_compute; reflexivity.
Defined.

(** ** How [version] relates to [release] *)

(** X5: [version] equals [release] exactly when [release] has at most two
    '.'-separated segments. *)
Theorem version_equals_release_iff
    (fs : filesystem) (__file__ : str) (cfg : Config) :
  conf fs __file__ = Ok cfg →
  (version cfg = release cfg ↔ length (split dot (release cfg)) ≤ 2).
Proof.
  intros Hcfg. apply conf_inv in Hcfg as [_ ->]. apply truncate_fixed_iff.
Qed.

Lemma version_equals_release_iff_witness :
  ∃ cfg,
    conf (fs_text (lit "2.5")) conf_py = Ok cfg ∧
    (version cfg = release cfg ↔ length (split dot (release cfg)) ≤ 2).
Proof.
  eexists. split; [vm_compute; reflexivity|].
  apply (version_equals_release_iff (fs_text (lit "2.5")) conf_py).
  vm_compute; reflexivity.
Defined.

(** X6: when [release] has more than two segments, [version] has exactly
    two, and [release] is [version], a '.', and the remaining segments
    joined by '.'; what is dropped starts at the second '.'. *)
Theorem release_extends_version
    (fs : filesystem) (__file__ : str) (cfg : Config) :
  conf fs __file__ = Ok cfg →
  2 < length (split dot (release cfg)) →
  release cfg
    = version cfg ++ dot :: join dot (drop 2 (split dot (release cfg))) ∧
  length (split dot (version cfg)) = 2 ∧
  length (version cfg) < length (release cfg).
Proof.
  intros Hcfg Hlen. apply conf_inv in Hcfg as [_ Hver].
  pose proof (truncate_tail (release cfg) Hlen) as Htail.
  rewrite <- Hver in Htail. split; [exact Htail|]. split.
  - rewrite Hver, split_truncate, length_take. lia.
  - rewrite Htail at 1. rewrite length_app. simpl. lia.
Qed.

Lemma release_extends_version_witness :
  ∃ cfg,
    conf (fs_text (lit "1.2.3.dev4")) conf_py = Ok cfg ∧
    2 < length (split dot (release cfg)) ∧
    release cfg
      = version cfg ++ dot :: join dot (drop 2 (split dot (release cfg))) ∧
    length (split dot (version cfg)) = 2 ∧
    length (version cfg) < length (release cfg).
Proof.
  eexists. split; [vm_compute; reflexivity|].
  split; [vm_compute; lia|].
  apply (release_extends_version (fs_text (lit "1.2.3.dev4")) conf_py);
    [vm_compute; reflexivity | vm_compute; lia].
Defined.

(** X7: two imports give the same [version] exactly when the first two
    segments of their releases coincide. *)
Theorem same_version_iff_same_first_two
    (fs1 fs2 : filesystem) (file1 file2 : str) (cfg1 cfg2 : Config) :
  conf fs1 file1 = Ok cfg1 →
  conf fs2 file2 = Ok cfg2 →
  (version cfg1 = version cfg2
     ↔ take 2 (split dot (release cfg1)) = take 2 (split dot (release cfg2))).
Proof.
  intros [_ ->]%conf_inv [_ ->]%conf_inv. apply truncate_eq_iff.
Qed.

Lemma same_version_iff_same_first_two_witness :
  ∃ cfg1 cfg2,
    conf (fs_text (lit "1.2.3")) conf_py = Ok cfg1 ∧
    conf (fs_text (lit "1.2.9")) conf_py = Ok cfg2 ∧
    (version cfg1 = version cfg2
       ↔ take 2 (split dot (release cfg1))
         = take 2 (split dot (release cfg2))).
Proof.
  eexists. eexists. split; [vm_compute; reflexivity|].
  split; [vm_compute; reflexivity|].
  apply (same_version_iff_same_first_two
           (fs_text (lit "1.2.3")) (fs_text (lit "1.2.9")) conf_py conf_py);
    vm_compute; reflexivity.
Defined.

(** X8: appending a '.' and any further text to a release that already has
    two segments does not change the [version]. *)
Theorem suffix_keeps_version
    (fs1 fs2 : filesystem) (file1 file2 : str) (cfg1 cfg2 : Config)
    (t : str) :
  conf fs1 file1 = Ok cfg1 →
  conf fs2 file2 = Ok cfg2 →
  2 ≤ length (split dot (release cfg1)) →
  release cfg2 = release cfg1 ++ dot :: t →
  version cfg2 = version cfg1.
Proof.
  intros [_ ->]%conf_inv [_ ->]%conf_inv Hlen ->.
  by apply truncate_app_suffix.
Qed.

Lemma suffix_keeps_version_witness :
  ∃ cfg1 cfg2,
    conf (fs_text (lit "3.11")) conf_py = Ok cfg1 ∧
    conf (fs_text (lit "3.11.0rc2")) conf_py = Ok cfg2 ∧
    2 ≤ length (split dot (release cfg1)) ∧
    release cfg2 = release cfg1 ++ dot :: lit "0rc2" ∧
    version cfg2 = version cfg1.
Proof.
  eexists. eexists. split; [vm_compute; reflexivity|].
  split; [vm_compute; reflexivity|].
  split; [vm_compute; lia|]. split; [vm_compute; reflexivity|].
  apply (suffix_keeps_version
           (fs_text (lit "3.11")) (fs_text (lit "3.11.0rc2"))
           conf_py conf_py _ _ (lit "0rc2"));
    [vm_compute; reflexivity | vm_compute; reflexivity
    | vm_compute; lia | vm_compute; reflexivity].
Defined.

(** X9: [version] contains a '.' exactly when [release] does. *)
Theorem version_has_dot_iff_release
    (fs : filesystem) (__file__ : str) (cfg : Config) :
  conf fs __file__ = Ok cfg →
  (dot ∈ version cfg ↔ dot ∈ release cfg).
Proof.
  intros [_ ->]%conf_inv. apply dot_in_truncate.
Qed.

Lemma version_has_dot_iff_release_witness :
  ∃ cfg,
    conf (fs_text (lit "0.9.1")) conf_py = Ok cfg ∧
    (dot ∈ version cfg ↔ dot ∈ release cfg).
Proof.
  eexists. split; [vm_compute; reflexivity|].
  apply (version_has_dot_iff_release (fs_text (lit "0.9.1")) conf_py).
  vm_compute; reflexivity.
Defined.

(** ** The version path and the rest of the configuration *)

(** X10: the version path keeps the directory of [conf.py] in front and
    ends with ["../../.version"]; the join never replaces the directory,
    and that directory is an initial part of [__file__]. *)
Theorem version_path_shape (__file__ : str) :
  os_path_dirname __file__ `prefix_of` version_file __file__ ∧
  lit "../../.version" `suffix_of` version_file __file__ ∧
  os_path_dirname __file__ `prefix_of` __file__.
Proof.
  split; [|split].
  - unfold version_file.
    destruct (os_path_join_relative_cases
                (os_path_dirname __file__) (lit "../../.version") eq_refl)
      as [-> | ->]; by apply prefix_app_r.
  - unfold version_file.
    destruct (os_path_join_relative_cases
                (os_path_dirname __file__) (lit "../../.version") eq_refl)
      as [-> | ->].
    + by apply suffix_app_r.
    + apply suffix_app_r. by apply suffix_cons_r.
  - apply os_path_dirname_prefix.
Qed.

(** X11: the version file reaches only [release] and [version]: any two
    completed imports agree on every other variable, and are equal as soon
    as their releases are. *)
Theorem version_file_affects_only_release
    (fs1 fs2 : filesystem) (file1 file2 : str) (cfg1 cfg2 : Config) :
  conf fs1 file1 = Ok cfg1 →
  conf fs2 file2 = Ok cfg2 →
  project cfg1 = project cfg2 ∧
  copyright cfg1 = copyright cfg2 ∧
  author cfg1 = author cfg2 ∧
  extensions cfg1 = extensions cfg2 ∧
  myst_enable_extensions cfg1 = myst_enable_extensions cfg2 ∧
  html_theme cfg1 = html_theme cfg2 ∧
  source_suffix cfg1 = source_suffix cfg2 ∧
  master_doc cfg1 = master_doc cfg2 ∧
  templates_path cfg1 = templates_path cfg2 ∧
  exclude_patterns cfg1 = exclude_patterns cfg2 ∧
  (release cfg1 = release cfg2 → cfg1 = cfg2).
Proof.
  unfold conf.
  destruct (read_release fs1 file1) as [r1|e1]; [|done].
  destruct (read_release fs2 file2) as [r2|e2]; [|done].
  intros [= <-] [= <-]. cbn.
  repeat (split; [reflexivity|]). by intros ->.
Qed.

Lemma version_file_affects_only_release_witness :
  ∃ cfg1 cfg2,
    conf ∅ conf_py = Ok cfg1 ∧
    conf (fs_text (lit "5.0.1")) conf_py = Ok cfg2 ∧
    release cfg1 ≠ release cfg2 ∧
    extensions cfg1 = extensions cfg2 ∧
    source_suffix cfg1 = source_suffix cfg2 ∧
    (release cfg1 = release cfg2 → cfg1 = cfg2).
Proof.
  destruct (conf_intro ∅ conf_py (lit "0.0.0")) as (cfg1 & H1 & Hr1 & _);
    [vm_compute; reflexivity|].
  destruct (conf_intro (fs_text (lit "5.0.1")) conf_py (lit "5.0.1"))
    as (cfg2 & H2 & Hr2 & _); [vm_compute; reflexivity|].
  exists cfg1, cfg2. split; [exact H1|]. split; [exact H2|].
  split; [rewrite Hr1, Hr2; discriminate|].
  destruct (version_file_affects_only_release
              ∅ (fs_text (lit "5.0.1")) conf_py conf_py cfg1 cfg2 H1 H2)
    as (_ & _ & _ & Hext & _ & _ & Hsuf & _ & _ & _ & Heq).
  split; [exact Hext|]. split; [exact Hsuf|exact Heq].
Defined.

(** X12: the import raises exactly when the version path is a directory
    (with [IsADirectoryError]) or a file whose opening or reading raises
    (with that same exception); nothing is caught or replaced. *)
Theorem import_raises_iff (fs : filesystem) (__file__ : str) (e : exn) :
  conf fs __file__ = Raise e
  ↔ (fs !! version_file __file__ = Some Directory ∧ e = IsADirectoryError)
    ∨ fs !! version_file __file__ = Some (Regular (Raise e)).
Proof.
  unfold conf. rewrite read_release_lookup.
  destruct (fs !! version_file __file__) as [[[text|e']|]|]; simpl.
  - split; [done|]. by intros [[? _]|?].
  - split.
    + intros [= ->]. by right.
    + intros [[? _]|[= ->]]; done.
  - split.
    + intros [= <-]. by left.
    + intros [[_ ->]|?]; done.
  - split; [done|]. by intros [[? _]|?].
Qed.
